(** * AndroidEnvironmentSetup

    A shallow embedding of [src/common/AndroidEnvironmentSetup.ts]: the
    Android setup profile and its six requirement classes.

    The collaborators the file imports ([util.format], the static class
    [AndroidUtils], [PlatformConfig], the loaded message catalog) are not
    defined in it.  They are gathered in a [Host] record, so every
    statement below holds for every behaviour of these collaborators.

    A promise is modelled by the state it settles in.  Every call of a
    collaborator that touches the machine or the catalog is recorded in a
    trace, which is how "is read", "is invoked" and "is forwarded" are
    stated. *)

From Stdlib Require Import String Ascii List ZArith Bool Lia.
Import ListNotations.
Open Scope string_scope.

(** ** JavaScript values, errors and promises *)

(** The values a property such as [error.status] can hold. *)
Inductive JsValue : Type :=
| Undefined
| Null
| Number (n : Z)
| Str (s : string).

(** [a === b]. *)
Definition strict_equals (a b : JsValue) : bool :=
  match a, b with
  | Undefined, Undefined => true
  | Null, Null => true
  | Number n, Number m => Z.eqb n m
  | Str s, Str t => String.eqb s t
  | _, _ => false
  end.

(** An error object: the class name, [message] and [status]. *)
Record JsError : Type := {
  name : string;
  message : string;
  status : JsValue
}.

(** [new SfdxError(msg)]. *)
Definition SfdxError (msg : string) : JsError :=
  {| name := "SfdxError"; message := msg; status := Undefined |}.

(** A promise, by the state it settles in. *)
Inductive Promise (A : Type) : Type :=
| Resolved (value : A)
| Rejected (reason : JsError).
Arguments Resolved {A} value.
Arguments Rejected {A} reason.

Definition isResolved {A : Type} (p : Promise A) : bool :=
  match p with Resolved _ => true | Rejected _ => false end.

(** ** Calls and traces *)

Inductive Kind : Type :=
| SDKRoot | Java8 | CmdLineTools | PlatformTools | PlatformAPI | EmulatorImages.

(** What a run can ask of its collaborators. *)
Inductive Call : Type :=
| GetMessage (key : string)
| CheckFunction (k : Kind)
| GetAndroidSdkRoot
| AndroidSDKPrerequisitesCheck
| FetchAndroidCmdLineToolsLocation
| FetchAndroidSDKPlatformToolsLocation
| FetchSupportedAndroidAPIPackage (apiLevel : option string)
| FetchSupportedEmulatorImagePackage (apiLevel : option string)
| GetAndroidPlatformTools
| ReadAndroidConfig.

Definition isGetMessage (c : Call) : bool :=
  match c with GetMessage _ => true | _ => false end.

Definition isReadAndroidConfig (c : Call) : bool :=
  match c with ReadAndroidConfig => true | _ => false end.

(** A computation: the calls it made, in order, and its value. *)
Definition M (A : Type) : Type := (list Call * A)%type.

Definition trace {A : Type} (m : M A) : list Call := fst m.
Definition result {A : Type} (m : M A) : A := snd m.

Definition ret {A : Type} (a : A) : M A := ([], a).

Definition bind {A B : Type} (m : M A) (f : A -> M B) : M B :=
  ((fst m ++ fst (f (snd m)))%list, snd (f (snd m))).

Definition call {A : Type} (c : Call) (answer : A) : M A := ([c], answer).

Notation "x <- m ;; k" := (bind m (fun x => k))
  (at level 61, m at next level, right associativity).
Notation "m ;;; k" := (bind m (fun _ => k))
  (at level 61, right associativity).

(** [Promise.resolve(v)] and [Promise.reject(e)]. *)
Definition resolve {A : Type} (v : A) : M (Promise A) := ret (Resolved v).
Definition reject {A : Type} (e : JsError) : M (Promise A) := ret (Rejected e).

(** [p.then(onFulfilled)]: a rejection passes through. *)
Definition then_ {A B : Type} (p : Promise A)
    (onFulfilled : A -> M (Promise B)) : M (Promise B) :=
  match p with
  | Resolved v => onFulfilled v
  | Rejected e => ret (Rejected e)
  end.

(** [p.catch(onRejected)]: a resolution passes through. *)
Definition catch_ {A : Type} (p : Promise A)
    (onRejected : JsError -> M (Promise A)) : M (Promise A) :=
  match p with
  | Resolved v => ret (Resolved v)
  | Rejected e => onRejected e
  end.

(** ** The collaborators *)

Record Logger : Type := { loggerName : string }.

(** The loaded message catalog: [messages.getMessage(key)]. *)
Definition Messages : Type := string -> string.

Definition getMessage (messages : Messages) (key : string) : M string :=
  call (GetMessage key) (messages key).

(** What [AndroidUtils.getAndroidSdkRoot()] returns when it finds a root. *)
Record AndroidSDKRoot : Type := {
  rootSource : string;
  rootLocation : string
}.

(** The descriptor the two package-discovery probes resolve with. *)
Record AndroidPackage : Type := {
  platformAPI : string;
  path : string
}.

(** [PlatformConfig.androidConfig()]. *)
Record AndroidConfig : Type := {
  minSupportedRuntime : string;
  supportedImages : list string
}.

(** The machine a check runs on: what each collaborator answers there. *)
Record Host : Type := {
  h_format : string -> list string -> string;
  h_convertToUnixPath : string -> string;
  h_sdkRoot : option AndroidSDKRoot;
  h_prerequisites : Promise string;
  h_cmdLineTools : Promise string;
  h_platformTools : Promise string;
  h_apiPackage : option string -> Promise AndroidPackage;
  h_emulatorImagePackage : option string -> Promise AndroidPackage;
  h_platformToolsName : string;
  h_androidConfig : AndroidConfig
}.

(** The same machine under another platform configuration. *)
Definition withConfig (h : Host) (cfg : AndroidConfig) : Host :=
  {| h_format := h_format h;
     h_convertToUnixPath := h_convertToUnixPath h;
     h_sdkRoot := h_sdkRoot h;
     h_prerequisites := h_prerequisites h;
     h_cmdLineTools := h_cmdLineTools h;
     h_platformTools := h_platformTools h;
     h_apiPackage := h_apiPackage h;
     h_emulatorImagePackage := h_emulatorImagePackage h;
     h_platformToolsName := h_platformToolsName h;
     h_androidConfig := cfg |}.

Module util.
(** [util.format(template, ...args)], all arguments being strings. *)
Definition format (h : Host) (template : string) (args : list string)
    : string :=
  h_format h template args.
End util.

(** [array.join(sep)] on an array of strings. *)
Definition join (sep : string) (xs : list string) : string :=
  String.concat sep xs.

Module AndroidUtils.
Definition getAndroidSdkRoot (h : Host) : M (option AndroidSDKRoot) :=
  call GetAndroidSdkRoot (h_sdkRoot h).

Definition androidSDKPrerequisitesCheck (h : Host) : M (Promise string) :=
  call AndroidSDKPrerequisitesCheck (h_prerequisites h).

Definition fetchAndroidCmdLineToolsLocation (h : Host)
    : M (Promise string) :=
  call FetchAndroidCmdLineToolsLocation (h_cmdLineTools h).

Definition fetchAndroidSDKPlatformToolsLocation (h : Host)
    : M (Promise string) :=
  call FetchAndroidSDKPlatformToolsLocation (h_platformTools h).

Definition fetchSupportedAndroidAPIPackage (h : Host)
    (apiLevel : option string) : M (Promise AndroidPackage) :=
  call (FetchSupportedAndroidAPIPackage apiLevel) (h_apiPackage h apiLevel).

Definition fetchSupportedEmulatorImagePackage (h : Host)
    (apiLevel : option string) : M (Promise AndroidPackage) :=
  call (FetchSupportedEmulatorImagePackage apiLevel)
       (h_emulatorImagePackage h apiLevel).

Definition getAndroidPlatformTools (h : Host) : M string :=
  call GetAndroidPlatformTools (h_platformToolsName h).

Definition convertToUnixPath (h : Host) (dirPath : string) : string :=
  h_convertToUnixPath h dirPath.
End AndroidUtils.

Module PlatformConfig.
Definition androidConfig (h : Host) : M AndroidConfig :=
  call ReadAndroidConfig (h_androidConfig h).
End PlatformConfig.

(** ** The six requirement classes *)

Module AndroidSDKRootSetRequirement.
Record t : Type := {
  title : string;
  fulfilledMessage : string;
  unfulfilledMessage : string;
  logger : Logger
}.

Definition new (messages : Messages) (logger : Logger) : M t :=
  title <- getMessage messages "android:reqs:androidhome:title" ;;
  fulfilledMessage <-
    getMessage messages "android:reqs:androidhome:fulfilledMessage" ;;
  unfulfilledMessage <-
    getMessage messages "android:reqs:androidhome:unfulfilledMessage" ;;
  ret {| title := title;
         fulfilledMessage := fulfilledMessage;
         unfulfilledMessage := unfulfilledMessage;
         logger := logger |}.

(** Verifies that the root directory path for Android SDK is set. *)
Definition checkFunction (this : t) (h : Host) : M (Promise string) :=
  call (CheckFunction SDKRoot) tt ;;;
  root <- AndroidUtils.getAndroidSdkRoot h ;;
  match root with
  | Some root =>
      resolve
        (AndroidUtils.convertToUnixPath h
           (util.format h (fulfilledMessage this)
              [rootSource root; rootLocation root]))
  | None => reject (SfdxError (unfulfilledMessage this))
  end.
End AndroidSDKRootSetRequirement.

Module Java8AvailableRequirement.
Record t : Type := {
  title : string;
  fulfilledMessage : string;
  unfulfilledMessage : string;
  logger : Logger
}.

Definition new (messages : Messages) (logger : Logger) : M t :=
  title <-
    getMessage messages "android:reqs:androidsdkprerequisitescheck:title" ;;
  fulfilledMessage <-
    getMessage messages
      "android:reqs:androidsdkprerequisitescheck:fulfilledMessage" ;;
  unfulfilledMessage <-
    getMessage messages
      "android:reqs:androidsdkprerequisitescheck:unfulfilledMessage" ;;
  ret {| title := title;
         fulfilledMessage := fulfilledMessage;
         unfulfilledMessage := unfulfilledMessage;
         logger := logger |}.

(** Verifies that prerequisites for Android SDK are met and that Java 8
    is installed. *)
Definition checkFunction (this : t) (h : Host) : M (Promise string) :=
  call (CheckFunction Java8) tt ;;;
  p <- AndroidUtils.androidSDKPrerequisitesCheck h ;;
  q <- then_ p (fun _ => resolve (fulfilledMessage this)) ;;
  catch_ q (fun error =>
    reject
      (SfdxError
         (util.format h (unfulfilledMessage this) [message error]))).
End Java8AvailableRequirement.

Module AndroidSDKToolsInstalledRequirement.
Record t : Type := {
  title : string;
  fulfilledMessage : string;
  unfulfilledMessage : string;
  logger : Logger
}.

Definition new (messages : Messages) (logger : Logger) : M t :=
  title <- getMessage messages "android:reqs:cmdlinetools:title" ;;
  fulfilledMessage <-
    getMessage messages "android:reqs:cmdlinetools:fulfilledMessage" ;;
  unfulfilledMessage <-
    getMessage messages "android:reqs:cmdlinetools:unfulfilledMessage" ;;
  ret {| title := title;
         fulfilledMessage := fulfilledMessage;
         unfulfilledMessage := unfulfilledMessage;
         logger := logger |}.

(** Verifies that user has Android command line tools installed. *)
Definition checkFunction (this : t) (h : Host) : M (Promise string) :=
  call (CheckFunction CmdLineTools) tt ;;;
  p <- AndroidUtils.fetchAndroidCmdLineToolsLocation h ;;
  q <- then_ p (fun result =>
         resolve
           (AndroidUtils.convertToUnixPath h
              (util.format h (fulfilledMessage this) [result]))) ;;
  catch_ q (fun error => reject (SfdxError (unfulfilledMessage this))).
End AndroidSDKToolsInstalledRequirement.

Module AndroidSDKPlatformToolsInstalledRequirement.
Record t : Type := {
  title : string;
  fulfilledMessage : string;
  unfulfilledMessage : string;
  notFoundMessage : string;
  logger : Logger
}.

Definition new (messages : Messages) (logger : Logger) : M t :=
  title <- getMessage messages "android:reqs:platformtools:title" ;;
  fulfilledMessage <-
    getMessage messages "android:reqs:platformtools:fulfilledMessage" ;;
  unfulfilledMessage <-
    getMessage messages "android:reqs:platformtools:unfulfilledMessage" ;;
  notFoundMessage <-
    getMessage messages "android:reqs:platformtools:notFound" ;;
  ret {| title := title;
         fulfilledMessage := fulfilledMessage;
         unfulfilledMessage := unfulfilledMessage;
         notFoundMessage := notFoundMessage;
         logger := logger |}.

(** Verifies that user has Android platform tools installed. *)
Definition checkFunction (this : t) (h : Host) : M (Promise string) :=
  call (CheckFunction PlatformTools) tt ;;;
  p <- AndroidUtils.fetchAndroidSDKPlatformToolsLocation h ;;
  q <- then_ p (fun result =>
         resolve
           (AndroidUtils.convertToUnixPath h
              (util.format h (fulfilledMessage this) [result]))) ;;
  catch_ q (fun error =>
    if strict_equals (status error) (Number 127) then
      tools <- AndroidUtils.getAndroidPlatformTools h ;;
      reject (SfdxError (util.format h (notFoundMessage this) [tools]))
    else
      config <- PlatformConfig.androidConfig h ;;
      reject
        (SfdxError
           (util.format h (unfulfilledMessage this)
              [minSupportedRuntime config]))).
End AndroidSDKPlatformToolsInstalledRequirement.

Module PlatformAPIPackageRequirement.
Record t : Type := {
  title : string;
  fulfilledMessage : string;
  unfulfilledMessage : string;
  logger : Logger;
  apiLevel : option string
}.

Definition new (messages : Messages) (logger : Logger)
    (apiLevel : option string) : M t :=
  title <- getMessage messages "android:reqs:platformapi:title" ;;
  fulfilledMessage <-
    getMessage messages "android:reqs:platformapi:fulfilledMessage" ;;
  unfulfilledMessage <-
    getMessage messages "android:reqs:platformapi:unfulfilledMessage" ;;
  ret {| title := title;
         fulfilledMessage := fulfilledMessage;
         unfulfilledMessage := unfulfilledMessage;
         logger := logger;
         apiLevel := apiLevel |}.

(** Verifies that user has a supported Android API package that also has
    matching supported emulator images installed. *)
Definition checkFunction (this : t) (h : Host) : M (Promise string) :=
  call (CheckFunction PlatformAPI) tt ;;;
  p <- AndroidUtils.fetchSupportedAndroidAPIPackage h (apiLevel this) ;;
  q <- then_ p (fun result =>
         resolve
           (util.format h (fulfilledMessage this) [platformAPI result])) ;;
  catch_ q (fun error =>
    config <- PlatformConfig.androidConfig h ;;
    reject
      (SfdxError
         (util.format h (unfulfilledMessage this)
            [minSupportedRuntime config]))).
End PlatformAPIPackageRequirement.

Module EmulatorImagesRequirement.
Record t : Type := {
  title : string;
  fulfilledMessage : string;
  unfulfilledMessage : string;
  logger : Logger;
  apiLevel : option string
}.

Definition new (messages : Messages) (logger : Logger)
    (apiLevel : option string) : M t :=
  title <- getMessage messages "android:reqs:emulatorimages:title" ;;
  fulfilledMessage <-
    getMessage messages "android:reqs:emulatorimages:fulfilledMessage" ;;
  unfulfilledMessage <-
    getMessage messages "android:reqs:emulatorimages:unfulfilledMessage" ;;
  ret {| title := title;
         fulfilledMessage := fulfilledMessage;
         unfulfilledMessage := unfulfilledMessage;
         logger := logger;
         apiLevel := apiLevel |}.

(** Verifies that user has at least one Android package with any of the
    supported emulator image targets. *)
Definition checkFunction (this : t) (h : Host) : M (Promise string) :=
  call (CheckFunction EmulatorImages) tt ;;;
  p <- AndroidUtils.fetchSupportedEmulatorImagePackage h (apiLevel this) ;;
  q <- then_ p (fun result =>
         resolve (util.format h (fulfilledMessage this) [path result])) ;;
  catch_ q (fun error =>
    config <- PlatformConfig.androidConfig h ;;
    reject
      (SfdxError
         (util.format h (unfulfilledMessage this)
            [join "," (supportedImages config)]))).
End EmulatorImagesRequirement.

(** ** The [Requirement] interface and the setup profile *)

(** An object implementing [Requirement]: one of the six classes. *)
Inductive Requirement : Type :=
| ReqSDKRoot (r : AndroidSDKRootSetRequirement.t)
| ReqJava8 (r : Java8AvailableRequirement.t)
| ReqCmdLineTools (r : AndroidSDKToolsInstalledRequirement.t)
| ReqPlatformTools (r : AndroidSDKPlatformToolsInstalledRequirement.t)
| ReqPlatformAPI (r : PlatformAPIPackageRequirement.t)
| ReqEmulatorImages (r : EmulatorImagesRequirement.t).

Definition kindOf (r : Requirement) : Kind :=
  match r with
  | ReqSDKRoot _ => SDKRoot
  | ReqJava8 _ => Java8
  | ReqCmdLineTools _ => CmdLineTools
  | ReqPlatformTools _ => PlatformTools
  | ReqPlatformAPI _ => PlatformAPI
  | ReqEmulatorImages _ => EmulatorImages
  end.

Definition title (r : Requirement) : string :=
  match r with
  | ReqSDKRoot r => AndroidSDKRootSetRequirement.title r
  | ReqJava8 r => Java8AvailableRequirement.title r
  | ReqCmdLineTools r => AndroidSDKToolsInstalledRequirement.title r
  | ReqPlatformTools r => AndroidSDKPlatformToolsInstalledRequirement.title r
  | ReqPlatformAPI r => PlatformAPIPackageRequirement.title r
  | ReqEmulatorImages r => EmulatorImagesRequirement.title r
  end.

Definition checkFunction (r : Requirement) (h : Host) : M (Promise string) :=
  match r with
  | ReqSDKRoot r => AndroidSDKRootSetRequirement.checkFunction r h
  | ReqJava8 r => Java8AvailableRequirement.checkFunction r h
  | ReqCmdLineTools r => AndroidSDKToolsInstalledRequirement.checkFunction r h
  | ReqPlatformTools r =>
      AndroidSDKPlatformToolsInstalledRequirement.checkFunction r h
  | ReqPlatformAPI r => PlatformAPIPackageRequirement.checkFunction r h
  | ReqEmulatorImages r => EmulatorImagesRequirement.checkFunction r h
  end.

(** Modelled from the spec: the base class [BaseSetup] of
    [common/Requirements.ts], which the constructor below extends, is not
    among the sources.  Its constructor keeps the logger and the loaded
    setup messages and starts from an empty catalog; [addBaseRequirements]
    appends to the catalog and holds no check logic. *)
Module BaseSetup.
Record t : Type := {
  logger : Logger;
  setupMessages : Messages;
  requirements : list Requirement
}.

Definition new (messages : Messages) (logger : Logger) : M t :=
  ret {| logger := logger;
         setupMessages := messages;
         requirements := [] |}.

Definition addBaseRequirements (this : t) (reqs : list Requirement) : M t :=
  ret {| logger := logger this;
         setupMessages := setupMessages this;
         requirements := (requirements this ++ reqs)%list |}.
End BaseSetup.

Module AndroidEnvironmentSetup.
(** [new AndroidEnvironmentSetup(logger, apiLevel)]; [messages] is the
    catalog that [super(logger)] loads. *)
Definition new (messages : Messages) (logger : Logger)
    (apiLevel : option string) : M BaseSetup.t :=
  this <- BaseSetup.new messages logger ;;
  r1 <- AndroidSDKRootSetRequirement.new
          (BaseSetup.setupMessages this) (BaseSetup.logger this) ;;
  r2 <- Java8AvailableRequirement.new
          (BaseSetup.setupMessages this) (BaseSetup.logger this) ;;
  r3 <- AndroidSDKToolsInstalledRequirement.new
          (BaseSetup.setupMessages this) (BaseSetup.logger this) ;;
  r4 <- AndroidSDKPlatformToolsInstalledRequirement.new
          (BaseSetup.setupMessages this) (BaseSetup.logger this) ;;
  r5 <- PlatformAPIPackageRequirement.new
          (BaseSetup.setupMessages this) (BaseSetup.logger this) apiLevel ;;
  r6 <- EmulatorImagesRequirement.new
          (BaseSetup.setupMessages this) (BaseSetup.logger this) apiLevel ;;
  let requirements :=
    [ReqSDKRoot r1; ReqJava8 r2; ReqCmdLineTools r3; ReqPlatformTools r4;
     ReqPlatformAPI r5; ReqEmulatorImages r6] in
  BaseSetup.addBaseRequirements this requirements.
End AndroidEnvironmentSetup.

(** ** A concrete machine

    One instance of the collaborators, on which the statements below are
    evaluated. *)
Module Sample.
(** The template loop of Node's [util.format] for string arguments, on
    templates whose only specifiers are [%s] and [%%]: [%s] takes the
    next argument while one is left, [%%] prints one percent sign. *)
Fixpoint render (template : string) (args : list string)
    : string * list string :=
  match template with
  | String "%" (String c rest) =>
      if Ascii.eqb c "s" then
        match args with
        | a :: args' =>
            let (out, left) := render rest args' in (a ++ out, left)
        | [] =>
            let (out, left) := render rest [] in
            (String "%" (String "s" out), left)
        end
      else if Ascii.eqb c "%" then
        let (out, left) := render rest args in (String "%" out, left)
      else
        let (out, left) := render rest args in
        (String "%" (String c out), left)
  | String c rest =>
      let (out, left) := render rest args in (String c out, left)
  | EmptyString => (EmptyString, args)
  end.

(** [util.format]: a lone template is returned as it is; arguments the
    template did not take are appended, each after a space. *)
Definition format (template : string) (args : list string) : string :=
  match args with
  | [] => template
  | _ =>
      let (out, left) := render template args in
      out ++ String.concat "" (map (fun a => " " ++ a) left)
  end.

(** Every run of backslashes becomes one slash. *)
Fixpoint unixPath (inRun : bool) (s : string) : string :=
  match s with
  | EmptyString => EmptyString
  | String c rest =>
      if Ascii.eqb c "\" then
        if inRun then unixPath true rest
        else String "/" (unixPath true rest)
      else String c (unixPath false rest)
  end.

Definition messages : Messages := fun key =>
  if String.eqb key "android:reqs:androidhome:fulfilledMessage"
  then "%s is set to %s"
  else if String.eqb key "android:reqs:cmdlinetools:fulfilledMessage"
  then "Command line tools found at %s"
  else if String.eqb key "android:reqs:platformtools:fulfilledMessage"
  then "Platform tools found at %s"
  else if String.eqb key "android:reqs:platformtools:unfulfilledMessage"
  then "Install platform tools for API %s or later"
  else if String.eqb key "android:reqs:platformtools:notFound"
  then "%s not found"
  else if String.eqb key "android:reqs:platformapi:fulfilledMessage"
  then "Using API %s."
  else if String.eqb key "android:reqs:platformapi:unfulfilledMessage"
  then "Install a platform package for API %s or later"
  else if String.eqb key "android:reqs:emulatorimages:fulfilledMessage"
  then "Emulator image found at %s"
  else if String.eqb key "android:reqs:emulatorimages:unfulfilledMessage"
  then "Install one of: %s"
  else if String.eqb key
            "android:reqs:androidsdkprerequisitescheck:unfulfilledMessage"
  then "Prerequisites missing: %s"
  else key.

Definition logger : Logger := {| loggerName := "setup" |}.

Definition config : AndroidConfig :=
  {| minSupportedRuntime := "23";
     supportedImages := ["google_apis"; "default"; "google_apis_playstore"] |}.

Definition notFound : JsError :=
  {| name := "Error"; message := "adb: command not found";
     status := Number 127 |}.

Definition failed : JsError :=
  {| name := "Error"; message := "adb exited"; status := Number 1 |}.

(** A machine on which everything is installed. *)
Definition ready : Host :=
  {| h_format := format;
     h_convertToUnixPath := unixPath false;
     h_sdkRoot :=
       Some {| rootSource := "ANDROID_HOME"; rootLocation := "C:\\sdk" |};
     h_prerequisites := Resolved "";
     h_cmdLineTools := Resolved "C:\sdk\cmdline-tools\bin";
     h_platformTools := Resolved "C:\sdk\platform-tools";
     h_apiPackage := fun _ =>
       Resolved {| platformAPI := "30"; path := "/x" |};
     h_emulatorImagePackage := fun _ =>
       Resolved {| platformAPI := "30";
                   path := "system-images;android-30;default;x86_64" |};
     h_platformToolsName := "platform-tools";
     h_androidConfig := config |}.

(** A machine on which every probe fails; the tool probes fail with
    [error]. *)
Definition bare (error : JsError) : Host :=
  {| h_format := format;
     h_convertToUnixPath := unixPath false;
     h_sdkRoot := None;
     h_prerequisites := Rejected error;
     h_cmdLineTools := Rejected error;
     h_platformTools := Rejected error;
     h_apiPackage := fun _ => Rejected error;
     h_emulatorImagePackage := fun _ => Rejected error;
     h_platformToolsName := "platform-tools";
     h_androidConfig := config |}.

Definition setup (apiLevel : option string) : BaseSetup.t :=
  result (AndroidEnvironmentSetup.new messages logger apiLevel).

Definition sdkRootReq : AndroidSDKRootSetRequirement.t :=
  result (AndroidSDKRootSetRequirement.new messages logger).

Definition cmdLineToolsReq : AndroidSDKToolsInstalledRequirement.t :=
  result (AndroidSDKToolsInstalledRequirement.new messages logger).

Definition platformToolsReq : AndroidSDKPlatformToolsInstalledRequirement.t :=
  result (AndroidSDKPlatformToolsInstalledRequirement.new messages logger).

Definition platformAPIReq : PlatformAPIPackageRequirement.t :=
  result (PlatformAPIPackageRequirement.new messages logger (Some "30")).

Definition emulatorImagesReq : EmulatorImagesRequirement.t :=
  result (EmulatorImagesRequirement.new messages logger (Some "30")).

(** Another platform configuration. *)
Definition olderConfig : AndroidConfig :=
  {| minSupportedRuntime := "21"; supportedImages := ["default"] |}.
End Sample.


(** ** Vocabulary of the statements *)

(** The catalog a constructed profile holds. *)
Definition catalog (messages : Messages) (logger : Logger)
    (apiLevel : option string) : list Requirement :=
  BaseSetup.requirements
    (result (AndroidEnvironmentSetup.new messages logger apiLevel)).

(** Whether the probe behind [r] succeeds on [h]: the path resolution
    returns a root, or the probe's promise resolves. *)
Definition probeSucceeds (r : Requirement) (h : Host) : bool :=
  match r with
  | ReqSDKRoot _ =>
      match h_sdkRoot h with Some _ => true | None => false end
  | ReqJava8 _ => isResolved (h_prerequisites h)
  | ReqCmdLineTools _ => isResolved (h_cmdLineTools h)
  | ReqPlatformTools _ => isResolved (h_platformTools h)
  | ReqPlatformAPI r =>
      isResolved (h_apiPackage h (PlatformAPIPackageRequirement.apiLevel r))
  | ReqEmulatorImages r =>
      isResolved
        (h_emulatorImagePackage h (EmulatorImagesRequirement.apiLevel r))
  end.



(** Every key the constructors read, in the order they read them. *)
Definition constructorKeys : list string :=
  ["android:reqs:androidhome:title";
   "android:reqs:androidhome:fulfilledMessage";
   "android:reqs:androidhome:unfulfilledMessage";
   "android:reqs:androidsdkprerequisitescheck:title";
   "android:reqs:androidsdkprerequisitescheck:fulfilledMessage";
   "android:reqs:androidsdkprerequisitescheck:unfulfilledMessage";
   "android:reqs:cmdlinetools:title";
   "android:reqs:cmdlinetools:fulfilledMessage";
   "android:reqs:cmdlinetools:unfulfilledMessage";
   "android:reqs:platformtools:title";
   "android:reqs:platformtools:fulfilledMessage";
   "android:reqs:platformtools:unfulfilledMessage";
   "android:reqs:platformtools:notFound";
   "android:reqs:platformapi:title";
   "android:reqs:platformapi:fulfilledMessage";
   "android:reqs:platformapi:unfulfilledMessage";
   "android:reqs:emulatorimages:title";
   "android:reqs:emulatorimages:fulfilledMessage";
   "android:reqs:emulatorimages:unfulfilledMessage"].

(** A call that runs a check or asks the machine something: every call
    but a read of the message catalog. *)
Definition isProbeOrCheck (c : Call) : bool := negb (isGetMessage c).

(** The version filters a run handed to the package-discovery probes. *)
Fixpoint forwardedLevels (calls : list Call) : list (option string) :=
  match calls with
  | [] => []
  | FetchSupportedAndroidAPIPackage level :: rest =>
      level :: forwardedLevels rest
  | FetchSupportedEmulatorImagePackage level :: rest =>
      level :: forwardedLevels rest
  | _ :: rest => forwardedLevels rest
  end.

(** The apiLevel a requirement object holds, when its class has one. *)
Definition heldLevel (r : Requirement) : option (option string) :=
  match r with
  | ReqPlatformAPI r => Some (PlatformAPIPackageRequirement.apiLevel r)
  | ReqEmulatorImages r => Some (EmulatorImagesRequirement.apiLevel r)
  | _ => None
  end.

(** The question a requirement's check puts to the machine. *)
Definition probeCall (r : Requirement) : Call :=
  match r with
  | ReqSDKRoot _ => GetAndroidSdkRoot
  | ReqJava8 _ => AndroidSDKPrerequisitesCheck
  | ReqCmdLineTools _ => FetchAndroidCmdLineToolsLocation
  | ReqPlatformTools _ => FetchAndroidSDKPlatformToolsLocation
  | ReqPlatformAPI r =>
      FetchSupportedAndroidAPIPackage (PlatformAPIPackageRequirement.apiLevel r)
  | ReqEmulatorImages r =>
      FetchSupportedEmulatorImagePackage (EmulatorImagesRequirement.apiLevel r)
  end.

(** The calls that probe the machine: the path resolution, the
    prerequisites check, the two tool locations, the two discoveries. *)
Definition isProbe (c : Call) : bool :=
  match c with
  | GetAndroidSdkRoot
  | AndroidSDKPrerequisitesCheck
  | FetchAndroidCmdLineToolsLocation
  | FetchAndroidSDKPlatformToolsLocation
  | FetchSupportedAndroidAPIPackage _
  | FetchSupportedEmulatorImagePackage _ => true
  | _ => false
  end.

(** Two machines with the same formatting helpers, the same platform-tools
    package name and the same platform configuration. *)
Definition sameHelpers (h1 h2 : Host) : Prop :=
  h_format h1 = h_format h2 /\
  h_convertToUnixPath h1 = h_convertToUnixPath h2 /\
  h_platformToolsName h1 = h_platformToolsName h2 /\
  h_androidConfig h1 = h_androidConfig h2.

(** Two machines on which the probe behind [r] answers the same. *)
Definition sameOwnProbe (r : Requirement) (h1 h2 : Host) : Prop :=
  match r with
  | ReqSDKRoot _ => h_sdkRoot h1 = h_sdkRoot h2
  | ReqJava8 _ => h_prerequisites h1 = h_prerequisites h2
  | ReqCmdLineTools _ => h_cmdLineTools h1 = h_cmdLineTools h2
  | ReqPlatformTools _ => h_platformTools h1 = h_platformTools h2
  | ReqPlatformAPI r =>
      h_apiPackage h1 (PlatformAPIPackageRequirement.apiLevel r) =
      h_apiPackage h2 (PlatformAPIPackageRequirement.apiLevel r)
  | ReqEmulatorImages r =>
      h_emulatorImagePackage h1 (EmulatorImagesRequirement.apiLevel r) =
      h_emulatorImagePackage h2 (EmulatorImagesRequirement.apiLevel r)
  end.

(** Each title of a profile with the outcome of its check on a machine, in
    catalog order. *)
Definition outcomesByTitle (setup : BaseSetup.t) (h : Host)
    : list (string * Promise string) :=
  map (fun r => (title r, result (checkFunction r h)))
      (BaseSetup.requirements setup).

(** ** More machines *)

Module Machines.
(** Another way for a shell to say that a command is missing. *)
Definition notFoundToo : JsError :=
  {| name := "ExecError"; message := "sh: 1: adb: not found";
     status := Number 127 |}.

(** [Sample.failed] as a subprocess would report it: the same message,
    another class and another status. *)
Definition failedToo : JsError :=
  {| name := "ExecError"; message := "adb exited"; status := Str "1" |}.

(** Only the two tool locations are found, as on [Sample.ready]. *)
Definition toolsOnly : Host :=
  {| h_format := Sample.format;
     h_convertToUnixPath := Sample.unixPath false;
     h_sdkRoot := None;
     h_prerequisites := Rejected Sample.failed;
     h_cmdLineTools := h_cmdLineTools Sample.ready;
     h_platformTools := h_platformTools Sample.ready;
     h_apiPackage := fun _ => Rejected Sample.failed;
     h_emulatorImagePackage := fun _ => Rejected Sample.failed;
     h_platformToolsName := "platform-tools";
     h_androidConfig := Sample.config |}.

(** [Sample.ready] with paths left as they are. *)
Definition rawPaths : Host :=
  {| h_format := Sample.format;
     h_convertToUnixPath := fun dirPath => dirPath;
     h_sdkRoot := h_sdkRoot Sample.ready;
     h_prerequisites := h_prerequisites Sample.ready;
     h_cmdLineTools := h_cmdLineTools Sample.ready;
     h_platformTools := h_platformTools Sample.ready;
     h_apiPackage := h_apiPackage Sample.ready;
     h_emulatorImagePackage := h_emulatorImagePackage Sample.ready;
     h_platformToolsName := "platform-tools";
     h_androidConfig := Sample.config |}.
End Machines.

(** * Properties *)

(** ** Running a computation *)

Lemma result_bind {A B : Type} (m : M A) (f : A -> M B) :
  result (bind m f) = result (f (result m)).
Proof. reflexivity. Qed.

Lemma trace_bind {A B : Type} (m : M A) (f : A -> M B) :
  trace (bind m f) = (trace m ++ trace (f (result m)))%list.
Proof. reflexivity. Qed.

Lemma strict_equals_number (v : JsValue) (n : Z) :
  strict_equals v (Number n) = true <-> v = Number n.
Proof.
  destruct v as [| | k | s]; simpl; split; intro H; try discriminate.
  - apply Z.eqb_eq in H. now subst.
  - injection H as ->. apply Z.eqb_refl.
Qed.

Lemma strict_equals_not_number (v : JsValue) (n : Z) :
  v <> Number n -> strict_equals v (Number n) = false.
Proof.
  intro H. destruct (strict_equals v (Number n)) eqn:E; [|reflexivity].
  apply strict_equals_number in E. contradiction.
Qed.

(** Unfolds one check down to the answers of the host. *)
Ltac run_check :=
  unfold checkFunction,
    AndroidSDKRootSetRequirement.checkFunction,
    Java8AvailableRequirement.checkFunction,
    AndroidSDKToolsInstalledRequirement.checkFunction,
    AndroidSDKPlatformToolsInstalledRequirement.checkFunction,
    PlatformAPIPackageRequirement.checkFunction,
    EmulatorImagesRequirement.checkFunction,
    AndroidUtils.getAndroidSdkRoot,
    AndroidUtils.androidSDKPrerequisitesCheck,
    AndroidUtils.fetchAndroidCmdLineToolsLocation,
    AndroidUtils.fetchAndroidSDKPlatformToolsLocation,
    AndroidUtils.fetchSupportedAndroidAPIPackage,
    AndroidUtils.fetchSupportedEmulatorImagePackage,
    AndroidUtils.getAndroidPlatformTools,
    PlatformConfig.androidConfig,
    result, trace, bind, call, resolve, reject, ret; cbn [fst snd].

(** ** The tool-location checks *)

Section PlatformTools.
Import AndroidSDKPlatformToolsInstalledRequirement.
Variable this : AndroidSDKPlatformToolsInstalledRequirement.t.
Variable h : Host.

Lemma platform_tools_resolved (location : string) :
  h_platformTools h = Resolved location ->
  result (checkFunction this h) =
  Resolved
    (AndroidUtils.convertToUnixPath h
       (util.format h (fulfilledMessage this) [location])).
Proof. intro E. run_check. rewrite E. reflexivity. Qed.

Lemma platform_tools_not_found (error : JsError) :
  h_platformTools h = Rejected error ->
  status error = Number 127 ->
  result (checkFunction this h) =
  Rejected
    (SfdxError
       (util.format h (notFoundMessage this) [h_platformToolsName h])).
Proof.
  intros E S. run_check. rewrite E. cbn. rewrite S. reflexivity.
Qed.

Lemma platform_tools_unsupported (error : JsError) :
  h_platformTools h = Rejected error ->
  status error <> Number 127 ->
  result (checkFunction this h) =
  Rejected
    (SfdxError
       (util.format h (unfulfilledMessage this)
          [minSupportedRuntime (h_androidConfig h)])).
Proof.
  intros E S. run_check. rewrite E. cbn.
  rewrite (strict_equals_not_number _ _ S). reflexivity.
Qed.
End PlatformTools.

(** C1. In the platform-tools check, a probe rejected with status 127
    rejects with the not-found template formatted with the platform-tools
    package name; a probe rejected with any other status rejects with the
    unfulfilled template formatted with the minimum supported runtime; and
    the check resolves only when the probe resolved, then with the
    fulfilled template formatted with the location the probe found. *)
Theorem platform_tools_check_messages
    (this : AndroidSDKPlatformToolsInstalledRequirement.t) (h : Host) :
  (forall error,
     h_platformTools h = Rejected error ->
     status error = Number 127 ->
     result (AndroidSDKPlatformToolsInstalledRequirement.checkFunction this h) =
     Rejected
       (SfdxError
          (util.format h
             (AndroidSDKPlatformToolsInstalledRequirement.notFoundMessage this)
             [h_platformToolsName h]))) /\
  (forall error,
     h_platformTools h = Rejected error ->
     status error <> Number 127 ->
     result (AndroidSDKPlatformToolsInstalledRequirement.checkFunction this h) =
     Rejected
       (SfdxError
          (util.format h
             (AndroidSDKPlatformToolsInstalledRequirement.unfulfilledMessage
                this)
             [minSupportedRuntime (h_androidConfig h)]))) /\
  (forall msg,
     result (AndroidSDKPlatformToolsInstalledRequirement.checkFunction this h) =
     Resolved msg ->
     exists location,
       h_platformTools h = Resolved location /\
       msg =
       AndroidUtils.convertToUnixPath h
         (util.format h
            (AndroidSDKPlatformToolsInstalledRequirement.fulfilledMessage this)
            [location])).
Proof.
  split; [|split].
  - intros error E S. exact (platform_tools_not_found this h error E S).
  - intros error E S. exact (platform_tools_unsupported this h error E S).
  - intros msg R. destruct (h_platformTools h) as [location | error] eqn:E.
    + exists location. split; [reflexivity|].
      rewrite (platform_tools_resolved this h location E) in R.
      now injection R as <-.
    + exfalso. destruct (strict_equals (status error) (Number 127)) eqn:S.
      * apply strict_equals_number in S.
        rewrite (platform_tools_not_found this h error E S) in R.
        discriminate.
      * assert (status error <> Number 127) as S'.
        { intro C. apply strict_equals_number in C. congruence. }
        rewrite (platform_tools_unsupported this h error E S') in R.
        discriminate.
Qed.

Section CmdLineTools.
Import AndroidSDKToolsInstalledRequirement.
Variable this : AndroidSDKToolsInstalledRequirement.t.

Lemma cmdline_tools_resolved (h : Host) (location : string) :
  h_cmdLineTools h = Resolved location ->
  result (checkFunction this h) =
  Resolved
    (AndroidUtils.convertToUnixPath h
       (util.format h (fulfilledMessage this) [location])).
Proof. intro E. run_check. rewrite E. reflexivity. Qed.

Lemma cmdline_tools_rejected (h : Host) (error : JsError) :
  h_cmdLineTools h = Rejected error ->
  checkFunction this h =
  ([CheckFunction CmdLineTools; FetchAndroidCmdLineToolsLocation],
   Rejected (SfdxError (unfulfilledMessage this))).
Proof. intro E. run_check. rewrite E. reflexivity. Qed.
End CmdLineTools.

(** C10. The command-line-tools check collapses every failure of its
    probe: whatever two errors the probe rejects with, on whatever two
    machines, status 127 or not, both checks reject with the same error,
    whose message is the unfulfilled template itself, nothing substituted,
    and both make the same calls. *)
Theorem cmdline_tools_failures_collapse
    (this : AndroidSDKToolsInstalledRequirement.t)
    (h1 h2 : Host) (error1 error2 : JsError) :
  h_cmdLineTools h1 = Rejected error1 ->
  h_cmdLineTools h2 = Rejected error2 ->
  result (AndroidSDKToolsInstalledRequirement.checkFunction this h1) =
  Rejected
    (SfdxError (AndroidSDKToolsInstalledRequirement.unfulfilledMessage this))
  /\
  AndroidSDKToolsInstalledRequirement.checkFunction this h1 =
  AndroidSDKToolsInstalledRequirement.checkFunction this h2.
Proof.
  intros E1 E2.
  rewrite (cmdline_tools_rejected this h1 error1 E1).
  rewrite (cmdline_tools_rejected this h2 error2 E2).
  split; reflexivity.
Qed.

(** ** The package-discovery checks *)

Section EmulatorImages.
Import EmulatorImagesRequirement.
Variable this : EmulatorImagesRequirement.t.
Variable h : Host.

Lemma emulator_images_resolved (found : AndroidPackage) :
  h_emulatorImagePackage h (apiLevel this) = Resolved found ->
  result (checkFunction this h) =
  Resolved (util.format h (fulfilledMessage this) [path found]).
Proof. intro E. run_check. rewrite E. reflexivity. Qed.

Lemma emulator_images_rejected (error : JsError) :
  h_emulatorImagePackage h (apiLevel this) = Rejected error ->
  result (checkFunction this h) =
  Rejected
    (SfdxError
       (util.format h (unfulfilledMessage this)
          [join "," (supportedImages (h_androidConfig h))])).
Proof. intro E. run_check. rewrite E. reflexivity. Qed.
End EmulatorImages.

(** [join] puts the separator between consecutive elements and keeps
    their order. *)
Lemma join_cons (sep x y : string) (xs : list string) :
  join sep (x :: y :: xs) = x ++ sep ++ join sep (y :: xs).
Proof. reflexivity. Qed.

Lemma join_single (sep x : string) : join sep [x] = x.
Proof. reflexivity. Qed.

(** C3. In the emulator-images check, a rejected discovery (which is how
    an empty discovered set reaches the check) rejects with the
    unfulfilled template formatted with one argument: all the configured
    supported images, in the configured order, joined by a comma; a
    discovery resolved with a descriptor resolves with the fulfilled
    template formatted with the descriptor's path. *)
Theorem emulator_images_check_messages
    (this : EmulatorImagesRequirement.t) (h : Host) :
  (forall error,
     h_emulatorImagePackage h (EmulatorImagesRequirement.apiLevel this) =
     Rejected error ->
     result (EmulatorImagesRequirement.checkFunction this h) =
     Rejected
       (SfdxError
          (util.format h (EmulatorImagesRequirement.unfulfilledMessage this)
             [String.concat "," (supportedImages (h_androidConfig h))]))) /\
  (forall found,
     h_emulatorImagePackage h (EmulatorImagesRequirement.apiLevel this) =
     Resolved found ->
     result (EmulatorImagesRequirement.checkFunction this h) =
     Resolved
       (util.format h (EmulatorImagesRequirement.fulfilledMessage this)
          [path found])).
Proof.
  split.
  - intros error E. exact (emulator_images_rejected this h error E).
  - intros found E. exact (emulator_images_resolved this h found E).
Qed.

Section PlatformAPIPackage.
Import PlatformAPIPackageRequirement.
Variable this : PlatformAPIPackageRequirement.t.
Variable h : Host.

Lemma platform_api_resolved (found : AndroidPackage) :
  h_apiPackage h (apiLevel this) = Resolved found ->
  result (checkFunction this h) =
  Resolved (util.format h (fulfilledMessage this) [platformAPI found]).
Proof. intro E. run_check. rewrite E. reflexivity. Qed.

Lemma platform_api_rejected (error : JsError) :
  h_apiPackage h (apiLevel this) = Rejected error ->
  result (checkFunction this h) =
  Rejected
    (SfdxError
       (util.format h (unfulfilledMessage this)
          [minSupportedRuntime (h_androidConfig h)])).
Proof. intro E. run_check. rewrite E. reflexivity. Qed.
End PlatformAPIPackage.

(** C4. In the platform-API package check, a discovery resolved with a
    descriptor resolves with the fulfilled template formatted with the
    descriptor's [platformAPI]; a rejected discovery rejects with the
    unfulfilled template formatted with the minimum supported runtime. *)
Theorem platform_api_check_messages
    (this : PlatformAPIPackageRequirement.t) (h : Host) :
  (forall found,
     h_apiPackage h (PlatformAPIPackageRequirement.apiLevel this) =
     Resolved found ->
     result (PlatformAPIPackageRequirement.checkFunction this h) =
     Resolved
       (util.format h (PlatformAPIPackageRequirement.fulfilledMessage this)
          [platformAPI found])) /\
  (forall error,
     h_apiPackage h (PlatformAPIPackageRequirement.apiLevel this) =
     Rejected error ->
     result (PlatformAPIPackageRequirement.checkFunction this h) =
     Rejected
       (SfdxError
          (util.format h (PlatformAPIPackageRequirement.unfulfilledMessage this)
             [minSupportedRuntime (h_androidConfig h)]))).
Proof.
  split.
  - intros found E. exact (platform_api_resolved this h found E).
  - intros error E. exact (platform_api_rejected this h error E).
Qed.

(** ** The SDK-root check *)

Section SDKRootSet.
Import AndroidSDKRootSetRequirement.
Variable this : AndroidSDKRootSetRequirement.t.
Variable h : Host.

Lemma sdk_root_present (root : AndroidSDKRoot) :
  h_sdkRoot h = Some root ->
  result (checkFunction this h) =
  Resolved
    (AndroidUtils.convertToUnixPath h
       (util.format h (fulfilledMessage this)
          [rootSource root; rootLocation root])).
Proof. intro E. run_check. rewrite E. reflexivity. Qed.

Lemma sdk_root_absent :
  h_sdkRoot h = None ->
  result (checkFunction this h) =
  Rejected (SfdxError (unfulfilledMessage this)).
Proof. intro E. run_check. rewrite E. reflexivity. Qed.
End SDKRootSet.

(** C5. The SDK-root check resolves exactly when the path resolution
    returns a root: with a root it resolves with the fulfilled template
    formatted with the root's source and location, passed through
    [convertToUnixPath]; without one it rejects with the unfulfilled
    template itself, nothing substituted. *)
Theorem sdk_root_check_iff_present
    (this : AndroidSDKRootSetRequirement.t) (h : Host) :
  (forall root,
     h_sdkRoot h = Some root ->
     result (AndroidSDKRootSetRequirement.checkFunction this h) =
     Resolved
       (AndroidUtils.convertToUnixPath h
          (util.format h (AndroidSDKRootSetRequirement.fulfilledMessage this)
             [rootSource root; rootLocation root]))) /\
  (h_sdkRoot h = None ->
   result (AndroidSDKRootSetRequirement.checkFunction this h) =
   Rejected
     (SfdxError (AndroidSDKRootSetRequirement.unfulfilledMessage this))) /\
  (isResolved (result (AndroidSDKRootSetRequirement.checkFunction this h)) =
   true <->
   exists root, h_sdkRoot h = Some root).
Proof.
  split; [|split].
  - intros root E. exact (sdk_root_present this h root E).
  - intro E. exact (sdk_root_absent this h E).
  - destruct (h_sdkRoot h) as [root|] eqn:E.
    + rewrite (sdk_root_present this h root E). simpl.
      split; [intros _; now exists root | reflexivity].
    + rewrite (sdk_root_absent this h E). simpl.
      split; [discriminate | intros [root R]; discriminate].
Qed.

(** ** The prerequisites check *)

Section Java8Available.
Import Java8AvailableRequirement.
Variable this : Java8AvailableRequirement.t.
Variable h : Host.

Lemma java8_resolved (value : string) :
  h_prerequisites h = Resolved value ->
  result (checkFunction this h) = Resolved (fulfilledMessage this).
Proof. intro E. run_check. rewrite E. reflexivity. Qed.

Lemma java8_rejected (error : JsError) :
  h_prerequisites h = Rejected error ->
  result (checkFunction this h) =
  Rejected
    (SfdxError (util.format h (unfulfilledMessage this) [message error])).
Proof. intro E. run_check. rewrite E. reflexivity. Qed.
End Java8Available.

(** ** The assembled catalog *)

Lemma catalog_shape (messages : Messages) (logger : Logger)
    (apiLevel : option string) :
  catalog messages logger apiLevel =
  [ReqSDKRoot (result (AndroidSDKRootSetRequirement.new messages logger));
   ReqJava8 (result (Java8AvailableRequirement.new messages logger));
   ReqCmdLineTools
     (result (AndroidSDKToolsInstalledRequirement.new messages logger));
   ReqPlatformTools
     (result (AndroidSDKPlatformToolsInstalledRequirement.new messages logger));
   ReqPlatformAPI
     (result (PlatformAPIPackageRequirement.new messages logger apiLevel));
   ReqEmulatorImages
     (result (EmulatorImagesRequirement.new messages logger apiLevel))].
Proof. reflexivity. Qed.

(** Whatever object implements [Requirement], its check resolves when its
    probe succeeds and rejects with an [SfdxError] of its own when its
    probe fails. *)
Lemma check_outcome_by_probe (r : Requirement) (h : Host) :
  exists msg : string,
    (probeSucceeds r h = true /\ result (checkFunction r h) = Resolved msg) \/
    (probeSucceeds r h = false /\
     result (checkFunction r h) = Rejected (SfdxError msg)).
Proof.
  destruct r as [r | r | r | r | r | r]; cbn [probeSucceeds checkFunction].
  - destruct (h_sdkRoot h) as [root|] eqn:E.
    + eexists. left. split; [reflexivity|]. exact (sdk_root_present r h root E).
    + eexists. right. split; [reflexivity|]. exact (sdk_root_absent r h E).
  - destruct (h_prerequisites h) as [v | e] eqn:E.
    + eexists. left. split; [reflexivity|]. exact (java8_resolved r h v E).
    + eexists. right. split; [reflexivity|]. exact (java8_rejected r h e E).
  - destruct (h_cmdLineTools h) as [v | e] eqn:E.
    + eexists. left. split; [reflexivity|].
      exact (cmdline_tools_resolved r h v E).
    + eexists. right. split; [reflexivity|].
      now rewrite (cmdline_tools_rejected r h e E).
  - destruct (h_platformTools h) as [v | e] eqn:E.
    + eexists. left. split; [reflexivity|].
      exact (platform_tools_resolved r h v E).
    + destruct (strict_equals (status e) (Number 127)) eqn:S.
      * apply strict_equals_number in S.
        eexists. right. split; [reflexivity|].
        exact (platform_tools_not_found r h e E S).
      * assert (status e <> Number 127) as S'.
        { intro C. apply strict_equals_number in C. congruence. }
        eexists. right. split; [reflexivity|].
        exact (platform_tools_unsupported r h e E S').
  - destruct (h_apiPackage h (PlatformAPIPackageRequirement.apiLevel r))
      as [v | e] eqn:E.
    + eexists. left. split; [reflexivity|].
      exact (platform_api_resolved r h v E).
    + eexists. right. split; [reflexivity|].
      exact (platform_api_rejected r h e E).
  - destruct (h_emulatorImagePackage h (EmulatorImagesRequirement.apiLevel r))
      as [v | e] eqn:E.
    + eexists. left. split; [reflexivity|].
      exact (emulator_images_resolved r h v E).
    + eexists. right. split; [reflexivity|].
      exact (emulator_images_rejected r h e E).
Qed.

(** C2. Each of the six requirements of the catalog, on every machine,
    returns a settled promise: resolved with a message when its probe
    succeeds, and, when its probe fails, rejected with an [SfdxError] the
    check builds itself.  (A check is a total function into promises: no
    path of any of the six ends in a synchronous throw.) *)
Theorem catalog_checks_signal_by_outcome
    (messages : Messages) (logger : Logger) (apiLevel : option string)
    (r : Requirement) (h : Host) :
  In r (catalog messages logger apiLevel) ->
  exists msg : string,
    (probeSucceeds r h = true /\ result (checkFunction r h) = Resolved msg) \/
    (probeSucceeds r h = false /\
     result (checkFunction r h) = Rejected (SfdxError msg)).
Proof. intros _. apply check_outcome_by_probe. Qed.

(** ** What the checks read and what they are handed *)

(** A check that read the platform configuration did not resolve. *)
Lemma config_read_only_when_rejected (r : Requirement) (h : Host) :
  In ReadAndroidConfig (trace (checkFunction r h)) ->
  isResolved (result (checkFunction r h)) = false.
Proof.
  destruct r as [r | r | r | r | r | r]; run_check.
  - destruct (h_sdkRoot h); cbn; intuition discriminate.
  - destruct (h_prerequisites h); cbn; intuition discriminate.
  - destruct (h_cmdLineTools h); cbn; intuition discriminate.
  - destruct (h_platformTools h) as [v | e]; cbn;
      [intuition discriminate|].
    destruct (strict_equals (status e) (Number 127)); reflexivity.
  - destruct (h_apiPackage h _); cbn; [intuition discriminate | reflexivity].
  - destruct (h_emulatorImagePackage h _); cbn;
      [intuition discriminate | reflexivity].
Qed.

(** A resolved check resolves with the same message under every platform
    configuration. *)
Lemma resolved_whatever_config (r : Requirement) (h : Host)
    (cfg1 cfg2 : AndroidConfig) (msg : string) :
  result (checkFunction r (withConfig h cfg1)) = Resolved msg ->
  result (checkFunction r (withConfig h cfg2)) = Resolved msg.
Proof.
  destruct r as [r | r | r | r | r | r]; run_check; cbn.
  - destruct (h_sdkRoot h); cbn; [trivial | discriminate].
  - destruct (h_prerequisites h); cbn; [trivial | discriminate].
  - destruct (h_cmdLineTools h); cbn; [trivial | discriminate].
  - destruct (h_platformTools h) as [v | e]; cbn; [trivial|].
    destruct (strict_equals (status e) (Number 127)); discriminate.
  - destruct (h_apiPackage h _); cbn; [trivial | discriminate].
  - destruct (h_emulatorImagePackage h _); cbn; [trivial | discriminate].
Qed.

Lemma probeSucceeds_withConfig (r : Requirement) (h : Host)
    (cfg : AndroidConfig) :
  probeSucceeds r (withConfig h cfg) = probeSucceeds r h.
Proof. destruct r; reflexivity. Qed.

Lemma isResolved_by_probe (r : Requirement) (h : Host) :
  isResolved (result (checkFunction r h)) = probeSucceeds r h.
Proof.
  destruct (check_outcome_by_probe r h) as [msg [[P R] | [P R]]];
    rewrite P, R; reflexivity.
Qed.

(** C6. For each requirement of the catalog: a check whose run read the
    platform configuration (the source of [minSupportedRuntime] and
    [supportedImages]) ended rejected; and changing the platform
    configuration changes neither whether the check resolves nor the
    message it resolves with. *)
Theorem config_only_formats_unfulfilled
    (messages : Messages) (logger : Logger) (apiLevel : option string)
    (r : Requirement) (h : Host) (cfg1 cfg2 : AndroidConfig) :
  In r (catalog messages logger apiLevel) ->
  (In ReadAndroidConfig (trace (checkFunction r h)) ->
   isResolved (result (checkFunction r h)) = false) /\
  isResolved (result (checkFunction r (withConfig h cfg1))) =
  isResolved (result (checkFunction r (withConfig h cfg2))) /\
  (forall msg : string,
     result (checkFunction r (withConfig h cfg1)) = Resolved msg ->
     result (checkFunction r (withConfig h cfg2)) = Resolved msg).
Proof.
  intros _. split; [|split].
  - apply config_read_only_when_rejected.
  - now rewrite !isResolved_by_probe, !probeSucceeds_withConfig.
  - intro msg. apply resolved_whatever_config.
Qed.

(** The version filters a check hands to the discovery probes: the one
    its object holds, once, when its class holds one; none otherwise. *)
Lemma forwarded_is_held (r : Requirement) (h : Host) :
  forwardedLevels (trace (checkFunction r h)) =
  match heldLevel r with Some level => [level] | None => [] end.
Proof.
  destruct r as [r | r | r | r | r | r]; run_check.
  - destruct (h_sdkRoot h); reflexivity.
  - destruct (h_prerequisites h); reflexivity.
  - destruct (h_cmdLineTools h); reflexivity.
  - destruct (h_platformTools h) as [v | e]; [reflexivity|]. cbn.
    destruct (strict_equals (status e) (Number 127)); reflexivity.
  - destruct (h_apiPackage h _); reflexivity.
  - destruct (h_emulatorImagePackage h _); reflexivity.
Qed.

(** The probes a check asks: its own, once. *)
Lemma probes_asked_by_check (r : Requirement) (h : Host) :
  filter isProbe (trace (checkFunction r h)) = [probeCall r].
Proof.
  destruct r as [r | r | r | r | r | r]; run_check; cbn [probeCall].
  - destruct (h_sdkRoot h); reflexivity.
  - destruct (h_prerequisites h); reflexivity.
  - destruct (h_cmdLineTools h); reflexivity.
  - destruct (h_platformTools h) as [v | e]; [reflexivity|]. cbn.
    destruct (strict_equals (status e) (Number 127)); reflexivity.
  - destruct (h_apiPackage h _); reflexivity.
  - destruct (h_emulatorImagePackage h _); reflexivity.
Qed.

(** C7. The apiLevel given to the constructor reaches the platform-API
    and the emulator-images requirements and nothing else: two profiles
    that differ only in apiLevel hold the same first four requirements,
    whose checks therefore run identically on every machine; the last two
    hold the apiLevel as given; and, probe by probe, the first four checks
    ask the four probes that take no version filter, the platform-API
    check asks the platform-API discovery with exactly the apiLevel given,
    and the emulator-images check asks the emulator-image discovery with
    exactly the apiLevel given, so both discoveries are asked with an
    absent filter when the apiLevel is unset. *)
Theorem apiLevel_reaches_only_package_checks
    (messages : Messages) (logger : Logger)
    (apiLevel other : option string) (h : Host) :
  firstn 4 (catalog messages logger apiLevel) =
  firstn 4 (catalog messages logger other) /\
  map (fun r => checkFunction r h)
      (firstn 4 (catalog messages logger apiLevel)) =
  map (fun r => checkFunction r h)
      (firstn 4 (catalog messages logger other)) /\
  map heldLevel (catalog messages logger apiLevel) =
  [None; None; None; None; Some apiLevel; Some apiLevel] /\
  map (fun r => forwardedLevels (trace (checkFunction r h)))
      (catalog messages logger apiLevel) =
  [[]; []; []; []; [apiLevel]; [apiLevel]] /\
  map (fun r => forwardedLevels (trace (checkFunction r h)))
      (catalog messages logger None) =
  [[]; []; []; []; [None]; [None]] /\
  map (fun r => filter isProbe (trace (checkFunction r h)))
      (catalog messages logger apiLevel) =
  [[GetAndroidSdkRoot];
   [AndroidSDKPrerequisitesCheck];
   [FetchAndroidCmdLineToolsLocation];
   [FetchAndroidSDKPlatformToolsLocation];
   [FetchSupportedAndroidAPIPackage apiLevel];
   [FetchSupportedEmulatorImagePackage apiLevel]] /\
  map (fun r => filter isProbe (trace (checkFunction r h)))
      (catalog messages logger None) =
  [[GetAndroidSdkRoot];
   [AndroidSDKPrerequisitesCheck];
   [FetchAndroidCmdLineToolsLocation];
   [FetchAndroidSDKPlatformToolsLocation];
   [FetchSupportedAndroidAPIPackage None];
   [FetchSupportedEmulatorImagePackage None]].
Proof.
  assert (forall level,
            map (fun r => forwardedLevels (trace (checkFunction r h)))
                (catalog messages logger level) =
            [[]; []; []; []; [level]; [level]]) as F.
  { intro level. rewrite catalog_shape. cbn [map].
    rewrite !forwarded_is_held. reflexivity. }
  assert (forall level,
            map (fun r => filter isProbe (trace (checkFunction r h)))
                (catalog messages logger level) =
            [[GetAndroidSdkRoot];
             [AndroidSDKPrerequisitesCheck];
             [FetchAndroidCmdLineToolsLocation];
             [FetchAndroidSDKPlatformToolsLocation];
             [FetchSupportedAndroidAPIPackage level];
             [FetchSupportedEmulatorImagePackage level]]) as P.
  { intro level. rewrite catalog_shape. cbn [map].
    rewrite !probes_asked_by_check. reflexivity. }
  repeat split; try reflexivity; first [apply F | apply P].
Qed.

(** ** Assembly *)






(** C9. Constructing a profile, for every logger and apiLevel, makes
    nineteen calls, all of them reads of the message catalog (the title
    and the templates of each requirement, in the order of the catalog):
    no check is run and no probe is asked, and six requirements are
    registered. *)
Theorem construction_runs_no_check
    (messages : Messages) (logger : Logger) (apiLevel : option string) :
  trace (AndroidEnvironmentSetup.new messages logger apiLevel) =
  map GetMessage constructorKeys /\
  Forall (fun c => isProbeOrCheck c = false)
         (trace (AndroidEnvironmentSetup.new messages logger apiLevel)) /\
  length
    (BaseSetup.requirements
       (result (AndroidEnvironmentSetup.new messages logger apiLevel))) = 6.
Proof.
  split; [reflexivity|]. split; [|reflexivity].
  cbn. repeat constructor.
Qed.

(** ** The statements on the concrete machine *)

Lemma platform_tools_check_messages_witness :
  result
    (AndroidSDKPlatformToolsInstalledRequirement.checkFunction
       Sample.platformToolsReq (Sample.bare Sample.notFound)) =
  Rejected (SfdxError "platform-tools not found") /\
  result
    (AndroidSDKPlatformToolsInstalledRequirement.checkFunction
       Sample.platformToolsReq (Sample.bare Sample.failed)) =
  Rejected (SfdxError "Install platform tools for API 23 or later").
Proof.
  split.
  - apply (proj1 (platform_tools_check_messages
                    Sample.platformToolsReq (Sample.bare Sample.notFound))
             Sample.notFound); reflexivity.
  - apply (proj1 (proj2 (platform_tools_check_messages
                           Sample.platformToolsReq
                           (Sample.bare Sample.failed)))
             Sample.failed); [reflexivity | discriminate].
Defined.

Lemma catalog_checks_signal_by_outcome_witness :
  exists msg : string,
    (probeSucceeds (ReqPlatformTools Sample.platformToolsReq)
       (Sample.bare Sample.notFound) = true /\
     result
       (checkFunction (ReqPlatformTools Sample.platformToolsReq)
          (Sample.bare Sample.notFound)) = Resolved msg) \/
    (probeSucceeds (ReqPlatformTools Sample.platformToolsReq)
       (Sample.bare Sample.notFound) = false /\
     result
       (checkFunction (ReqPlatformTools Sample.platformToolsReq)
          (Sample.bare Sample.notFound)) = Rejected (SfdxError msg)).
Proof.
  apply (catalog_checks_signal_by_outcome
           Sample.messages Sample.logger (Some "30")).
  simpl. do 3 right. left. reflexivity.
Defined.

Lemma emulator_images_check_messages_witness :
  result
    (EmulatorImagesRequirement.checkFunction
       Sample.emulatorImagesReq (Sample.bare Sample.failed)) =
  Rejected
    (SfdxError "Install one of: google_apis,default,google_apis_playstore") /\
  result
    (EmulatorImagesRequirement.checkFunction
       Sample.emulatorImagesReq Sample.ready) =
  Resolved "Emulator image found at system-images;android-30;default;x86_64".
Proof.
  split.
  - apply (proj1 (emulator_images_check_messages
                    Sample.emulatorImagesReq (Sample.bare Sample.failed))
             Sample.failed).
    reflexivity.
  - apply (proj2 (emulator_images_check_messages
                    Sample.emulatorImagesReq Sample.ready)
             {| platformAPI := "30";
                path := "system-images;android-30;default;x86_64" |}).
    reflexivity.
Defined.

(** The found API level 30 is in the rendered message. *)
Lemma platform_api_check_messages_witness :
  result
    (PlatformAPIPackageRequirement.checkFunction
       Sample.platformAPIReq Sample.ready) =
  Resolved "Using API 30." /\
  result
    (PlatformAPIPackageRequirement.checkFunction
       Sample.platformAPIReq (Sample.bare Sample.failed)) =
  Rejected (SfdxError "Install a platform package for API 23 or later").
Proof.
  split.
  - apply (proj1 (platform_api_check_messages
                    Sample.platformAPIReq Sample.ready)
             {| platformAPI := "30"; path := "/x" |}).
    reflexivity.
  - apply (proj2 (platform_api_check_messages
                    Sample.platformAPIReq (Sample.bare Sample.failed))
             Sample.failed).
    reflexivity.
Defined.

Lemma sdk_root_check_iff_present_witness :
  result
    (AndroidSDKRootSetRequirement.checkFunction Sample.sdkRootReq
       Sample.ready) =
  Resolved "ANDROID_HOME is set to C:/sdk" /\
  result
    (AndroidSDKRootSetRequirement.checkFunction Sample.sdkRootReq
       (Sample.bare Sample.failed)) =
  Rejected (SfdxError "android:reqs:androidhome:unfulfilledMessage").
Proof.
  split.
  - apply (proj1 (sdk_root_check_iff_present Sample.sdkRootReq Sample.ready)
             {| rootSource := "ANDROID_HOME"; rootLocation := "C:\\sdk" |}).
    reflexivity.
  - apply (proj1 (proj2 (sdk_root_check_iff_present Sample.sdkRootReq
                           (Sample.bare Sample.failed)))).
    reflexivity.
Defined.

Lemma config_only_formats_unfulfilled_witness :
  (In ReadAndroidConfig
      (trace
         (checkFunction (ReqPlatformAPI Sample.platformAPIReq)
            (Sample.bare Sample.failed))) ->
   isResolved
     (result
        (checkFunction (ReqPlatformAPI Sample.platformAPIReq)
           (Sample.bare Sample.failed))) = false) /\
  isResolved
    (result
       (checkFunction (ReqPlatformAPI Sample.platformAPIReq)
          (withConfig (Sample.bare Sample.failed) Sample.config))) =
  isResolved
    (result
       (checkFunction (ReqPlatformAPI Sample.platformAPIReq)
          (withConfig (Sample.bare Sample.failed) Sample.olderConfig))) /\
  (forall msg : string,
     result
       (checkFunction (ReqPlatformAPI Sample.platformAPIReq)
          (withConfig (Sample.bare Sample.failed) Sample.config)) =
     Resolved msg ->
     result
       (checkFunction (ReqPlatformAPI Sample.platformAPIReq)
          (withConfig (Sample.bare Sample.failed) Sample.olderConfig)) =
     Resolved msg).
Proof.
  apply (config_only_formats_unfulfilled
           Sample.messages Sample.logger (Some "30")).
  simpl. do 4 right. left. reflexivity.
Defined.


Lemma cmdline_tools_failures_collapse_witness :
  result
    (AndroidSDKToolsInstalledRequirement.checkFunction Sample.cmdLineToolsReq
       (Sample.bare Sample.notFound)) =
  Rejected (SfdxError "android:reqs:cmdlinetools:unfulfilledMessage") /\
  AndroidSDKToolsInstalledRequirement.checkFunction Sample.cmdLineToolsReq
    (Sample.bare Sample.notFound) =
  AndroidSDKToolsInstalledRequirement.checkFunction Sample.cmdLineToolsReq
    (Sample.bare Sample.failed).
Proof.
  apply (cmdline_tools_failures_collapse Sample.cmdLineToolsReq
           (Sample.bare Sample.notFound) (Sample.bare Sample.failed)
           Sample.notFound Sample.failed); reflexivity.
Defined.

(** * Further properties of the checks *)

(** ** What a check asks *)

(** X1. A check consults no probe but its own: on two machines that agree
    on the formatting helpers, the platform-tools package name, the
    platform configuration and the answer of the requirement's own probe,
    the check makes the same calls and settles the same way, whatever the
    other five probes answer. *)
Theorem check_depends_on_own_probe_only
    (r : Requirement) (h1 h2 : Host) :
  sameHelpers h1 h2 ->
  sameOwnProbe r h1 h2 ->
  checkFunction r h1 = checkFunction r h2.
Proof.
  intros (F & U & N & C) P.
  destruct r as [r | r | r | r | r | r]; cbn [sameOwnProbe] in P;
    run_check; unfold util.format, AndroidUtils.convertToUnixPath;
    rewrite <- P, <- ?F, <- ?U, <- ?N, <- ?C; reflexivity.
Qed.

(** X2. Of the calls that reach the machine or the message catalog (the
    six probes, the lookup of the platform-tools package name, the read of
    the platform configuration, the reads of the catalog), a check makes
    these: its own probe, once, first; nothing more when the probe
    succeeds; and, when it fails, at most one more, which is the lookup of
    the package name or the read of the configuration.  It asks no other
    probe and never reads the message catalog.  (The string helpers
    [util.format] and [convertToUnixPath] are not among the traced
    calls.) *)
Theorem check_asks_its_probe_once (r : Requirement) (h : Host) :
  exists rest : list Call,
    trace (checkFunction r h) =
    (CheckFunction (kindOf r) :: probeCall r :: rest) /\
    (probeSucceeds r h = true -> rest = []) /\
    (rest = [] \/ rest = [GetAndroidPlatformTools] \/
     rest = [ReadAndroidConfig]) /\
    filter isProbe (trace (checkFunction r h)) = [probeCall r] /\
    filter isGetMessage (trace (checkFunction r h)) = [].
Proof.
  destruct r as [r | r | r | r | r | r]; run_check;
    cbn [kindOf probeCall probeSucceeds].
  - destruct (h_sdkRoot h); eexists; cbn;
      repeat split; auto; discriminate.
  - destruct (h_prerequisites h); eexists; cbn;
      repeat split; auto; discriminate.
  - destruct (h_cmdLineTools h); eexists; cbn;
      repeat split; auto; discriminate.
  - destruct (h_platformTools h) as [v | e].
    + eexists; cbn; repeat split; auto.
    + cbn. destruct (strict_equals (status e) (Number 127));
        eexists; cbn; repeat split; auto; discriminate.
  - destruct (h_apiPackage h _); eexists; cbn;
      repeat split; auto; discriminate.
  - destruct (h_emulatorImagePackage h _); eexists; cbn;
      repeat split; auto; discriminate.
Qed.

(** X3. In the platform-tools check the two failure branches exclude each
    other: the package name is looked up exactly when the probe rejects
    with status 127, the platform configuration is read exactly when it
    rejects with another status, and no run does both. *)
Theorem platform_tools_lookups_exclusive
    (this : AndroidSDKPlatformToolsInstalledRequirement.t) (h : Host) :
  (In GetAndroidPlatformTools
      (trace (AndroidSDKPlatformToolsInstalledRequirement.checkFunction this h))
   <->
   exists error,
     h_platformTools h = Rejected error /\ status error = Number 127) /\
  (In ReadAndroidConfig
      (trace (AndroidSDKPlatformToolsInstalledRequirement.checkFunction this h))
   <->
   exists error,
     h_platformTools h = Rejected error /\ status error <> Number 127) /\
  ~ (In GetAndroidPlatformTools
        (trace
           (AndroidSDKPlatformToolsInstalledRequirement.checkFunction this h))
     /\
     In ReadAndroidConfig
        (trace
           (AndroidSDKPlatformToolsInstalledRequirement.checkFunction this h))).
Proof.
  run_check. destruct (h_platformTools h) as [v | e]; cbn.
  - repeat split; try (intros [H | [H | []]]; discriminate);
      try (intros (error & E & _); discriminate).
    intros [[H | [H | []]] _]; discriminate.
  - destruct (strict_equals (status e) (Number 127)) eqn:S; cbn.
    + apply strict_equals_number in S. repeat split.
      * intros _. now exists e.
      * intros _. auto.
      * intros [H | [H | [H | []]]]; discriminate.
      * intros (error & E & N). injection E as <-. contradiction.
      * intros [_ [H | [H | [H | []]]]]; discriminate.
    + assert (status e <> Number 127) as S'.
      { intro C. apply strict_equals_number in C. congruence. }
      repeat split.
      * intros [H | [H | [H | []]]]; discriminate.
      * intros (error & E & N). injection E as <-. contradiction.
      * intros _. now exists e.
      * intros _. auto.
      * intros [[H | [H | [H | []]]] _]; discriminate.
Qed.

(** ** Which details of a failure survive *)

(** X4. Besides the command-line-tools check, the SDK-root check and the
    two package-discovery checks also drop the cause of a failure: for
    every requirement other than the prerequisites check and the
    platform-tools check, two failed probes, whatever they rejected with,
    give the same calls and the same rejection on machines with the same
    helpers. *)
Theorem failure_cause_dropped
    (r : Requirement) (h1 h2 : Host) :
  kindOf r <> Java8 ->
  kindOf r <> PlatformTools ->
  sameHelpers h1 h2 ->
  probeSucceeds r h1 = false ->
  probeSucceeds r h2 = false ->
  checkFunction r h1 = checkFunction r h2.
Proof.
  intros NJ NP (F & U & N & C) P1 P2.
  destruct r as [r | r | r | r | r | r]; cbn [kindOf] in NJ, NP;
    try congruence; cbn [probeSucceeds] in P1, P2; run_check;
    unfold util.format.
  - destruct (h_sdkRoot h1), (h_sdkRoot h2); try discriminate. reflexivity.
  - destruct (h_cmdLineTools h1), (h_cmdLineTools h2); try discriminate.
    reflexivity.
  - destruct (h_apiPackage h1 _), (h_apiPackage h2 _); try discriminate.
    cbn. now rewrite F, C.
  - destruct (h_emulatorImagePackage h1 _), (h_emulatorImagePackage h2 _);
      try discriminate.
    cbn. now rewrite F, C.
Qed.

(** X5. The prerequisites check keeps of a failure its message and nothing
    else: two rejections with the same [message], whatever their name and
    status, give the same run under the same [util.format]; and a success
    resolves with the fulfilled template itself, unformatted, whatever the
    probe resolved with and whatever the helpers are. *)
Theorem prerequisites_keeps_message_only
    (this : Java8AvailableRequirement.t) (h1 h2 : Host) :
  (forall error1 error2,
     h_format h1 = h_format h2 ->
     h_prerequisites h1 = Rejected error1 ->
     h_prerequisites h2 = Rejected error2 ->
     message error1 = message error2 ->
     Java8AvailableRequirement.checkFunction this h1 =
     Java8AvailableRequirement.checkFunction this h2) /\
  (forall value1 value2,
     h_prerequisites h1 = Resolved value1 ->
     h_prerequisites h2 = Resolved value2 ->
     Java8AvailableRequirement.checkFunction this h1 =
     Java8AvailableRequirement.checkFunction this h2 /\
     result (Java8AvailableRequirement.checkFunction this h1) =
     Resolved (Java8AvailableRequirement.fulfilledMessage this)).
Proof.
  split.
  - intros e1 e2 F E1 E2 M. run_check. unfold util.format.
    rewrite E1, E2. cbn. now rewrite F, M.
  - intros v1 v2 E1 E2. run_check. rewrite E1, E2. cbn. split; reflexivity.
Qed.

(** X6. The platform-tools check keeps of a failure only whether its
    status is 127: two rejections that are both with status 127, or both
    not, give the same run on machines with the same helpers, whatever
    else the errors hold. *)
Theorem platform_tools_keeps_not_found_only
    (this : AndroidSDKPlatformToolsInstalledRequirement.t)
    (h1 h2 : Host) (error1 error2 : JsError) :
  sameHelpers h1 h2 ->
  h_platformTools h1 = Rejected error1 ->
  h_platformTools h2 = Rejected error2 ->
  (status error1 = Number 127 <-> status error2 = Number 127) ->
  AndroidSDKPlatformToolsInstalledRequirement.checkFunction this h1 =
  AndroidSDKPlatformToolsInstalledRequirement.checkFunction this h2.
Proof.
  intros (F & U & N & C) E1 E2 S. run_check. unfold util.format.
  rewrite E1, E2. cbn.
  destruct (strict_equals (status error1) (Number 127)) eqn:S1;
    destruct (strict_equals (status error2) (Number 127)) eqn:S2; cbn.
  - now rewrite F, N.
  - apply strict_equals_number in S1. apply S in S1.
    apply strict_equals_number in S1. congruence.
  - apply strict_equals_number in S2. apply S in S2.
    apply strict_equals_number in S2. congruence.
  - now rewrite F, C.
Qed.

(** X7. Only the resolved messages of the SDK-root check and of the two
    tool-location checks pass through [convertToUnixPath]: every
    rejection, and every outcome of the prerequisites check and of the two
    package-discovery checks (which report the found API level and the
    found image path as they are), is the same whatever
    [convertToUnixPath] does. *)
Theorem only_tool_paths_are_normalised
    (r : Requirement) (h1 h2 : Host) :
  h_format h1 = h_format h2 ->
  h_platformToolsName h1 = h_platformToolsName h2 ->
  h_androidConfig h1 = h_androidConfig h2 ->
  sameOwnProbe r h1 h2 ->
  probeSucceeds r h1 = false \/
  kindOf r = Java8 \/ kindOf r = PlatformAPI \/ kindOf r = EmulatorImages ->
  checkFunction r h1 = checkFunction r h2.
Proof.
  intros F N C P K.
  destruct r as [r | r | r | r | r | r];
    cbn [sameOwnProbe kindOf probeSucceeds] in P, K;
    run_check; unfold util.format; rewrite <- P.
  - destruct (h_sdkRoot h1); [|reflexivity].
    destruct K as [K | [K | [K | K]]]; discriminate.
  - destruct (h_prerequisites h1); cbn; now rewrite ?F.
  - destruct (h_cmdLineTools h1); [|reflexivity].
    destruct K as [K | [K | [K | K]]]; discriminate.
  - destruct (h_platformTools h1) as [v | e].
    + destruct K as [K | [K | [K | K]]]; discriminate.
    + cbn. destruct (strict_equals (status e) (Number 127)); cbn;
        now rewrite F, ?N, ?C.
  - destruct (h_apiPackage h1 _); cbn; now rewrite F, ?C.
  - destruct (h_emulatorImagePackage h1 _); cbn; now rewrite F, ?C.
Qed.

(** ** The profile as a whole *)

(** X8. On every machine, all six checks of a profile resolve exactly when
    all six probes succeed: a root is resolved, the prerequisites check
    and both tool locations resolve, and both discoveries, asked with the
    profile's apiLevel, resolve. *)
Theorem profile_satisfied_iff_all_probes_succeed
    (messages : Messages) (logger : Logger) (apiLevel : option string)
    (h : Host) :
  forallb (fun r => isResolved (result (checkFunction r h)))
          (catalog messages logger apiLevel) = true <->
  (exists root, h_sdkRoot h = Some root) /\
  isResolved (h_prerequisites h) = true /\
  isResolved (h_cmdLineTools h) = true /\
  isResolved (h_platformTools h) = true /\
  isResolved (h_apiPackage h apiLevel) = true /\
  isResolved (h_emulatorImagePackage h apiLevel) = true.
Proof.
  rewrite catalog_shape. cbn [forallb].
  rewrite !isResolved_by_probe. cbn [probeSucceeds].
  change (PlatformAPIPackageRequirement.apiLevel
            (result (PlatformAPIPackageRequirement.new
                       messages logger apiLevel))) with apiLevel.
  change (EmulatorImagesRequirement.apiLevel
            (result (EmulatorImagesRequirement.new
                       messages logger apiLevel))) with apiLevel.
  rewrite !andb_true_iff.
  destruct (h_sdkRoot h) as [root|].
  - intuition eauto.
  - split.
    + intros (F & _). discriminate.
    + intros ((root & R) & _). discriminate.
Qed.

(** X9. On a machine where everything is found, a profile reports, under
    the six title texts in catalog order, the six fulfilled templates of
    the message catalog: the SDK-root one formatted with the root's source
    and location and the two tool ones with the found location, all three
    passed through [convertToUnixPath]; the prerequisites one as it is;
    the platform-API one formatted with the found API level; the
    emulator-images one with the found image path. *)
Theorem report_when_all_found
    (messages : Messages) (logger : Logger) (apiLevel : option string)
    (h : Host) (root : AndroidSDKRoot) (checked tools platformTools : string)
    (api image : AndroidPackage) :
  h_sdkRoot h = Some root ->
  h_prerequisites h = Resolved checked ->
  h_cmdLineTools h = Resolved tools ->
  h_platformTools h = Resolved platformTools ->
  h_apiPackage h apiLevel = Resolved api ->
  h_emulatorImagePackage h apiLevel = Resolved image ->
  outcomesByTitle
    (result (AndroidEnvironmentSetup.new messages logger apiLevel)) h =
  [(messages "android:reqs:androidhome:title",
    Resolved
      (AndroidUtils.convertToUnixPath h
         (util.format h (messages "android:reqs:androidhome:fulfilledMessage")
            [rootSource root; rootLocation root])));
   (messages "android:reqs:androidsdkprerequisitescheck:title",
    Resolved
      (messages "android:reqs:androidsdkprerequisitescheck:fulfilledMessage"));
   (messages "android:reqs:cmdlinetools:title",
    Resolved
      (AndroidUtils.convertToUnixPath h
         (util.format h (messages "android:reqs:cmdlinetools:fulfilledMessage")
            [tools])));
   (messages "android:reqs:platformtools:title",
    Resolved
      (AndroidUtils.convertToUnixPath h
         (util.format h
            (messages "android:reqs:platformtools:fulfilledMessage")
            [platformTools])));
   (messages "android:reqs:platformapi:title",
    Resolved
      (util.format h (messages "android:reqs:platformapi:fulfilledMessage")
         [platformAPI api]));
   (messages "android:reqs:emulatorimages:title",
    Resolved
      (util.format h (messages "android:reqs:emulatorimages:fulfilledMessage")
         [path image]))].
Proof.
  intros R P T L A I. unfold outcomesByTitle.
  change (BaseSetup.requirements
            (result (AndroidEnvironmentSetup.new messages logger apiLevel)))
    with (catalog messages logger apiLevel).
  rewrite catalog_shape. cbn [map checkFunction].
  rewrite (sdk_root_present _ h root R), (java8_resolved _ h checked P),
    (cmdline_tools_resolved _ h tools T),
    (platform_tools_resolved _ h platformTools L),
    (platform_api_resolved
       (result (PlatformAPIPackageRequirement.new messages logger apiLevel)) h api A),
    (emulator_images_resolved
       (result (EmulatorImagesRequirement.new messages logger apiLevel)) h image I).
  reflexivity.
Qed.

(** X10. On a machine where nothing is found (no root, every probe
    rejected, the platform-tools probe with status 127), a profile
    reports six rejections, each an [SfdxError] built from the catalog:
    the SDK-root and command-line-tools unfulfilled templates as they are,
    the prerequisites one formatted with the probe's error message, the
    platform-tools not-found template formatted with the package name, the
    platform-API one formatted with the minimum supported runtime, and the
    emulator-images one with the supported images joined by commas. *)
Theorem report_when_nothing_found
    (messages : Messages) (logger : Logger) (apiLevel : option string)
    (h : Host) (e2 e3 e4 e5 e6 : JsError) :
  h_sdkRoot h = None ->
  h_prerequisites h = Rejected e2 ->
  h_cmdLineTools h = Rejected e3 ->
  h_platformTools h = Rejected e4 ->
  status e4 = Number 127 ->
  h_apiPackage h apiLevel = Rejected e5 ->
  h_emulatorImagePackage h apiLevel = Rejected e6 ->
  outcomesByTitle
    (result (AndroidEnvironmentSetup.new messages logger apiLevel)) h =
  [(messages "android:reqs:androidhome:title",
    Rejected
      (SfdxError (messages "android:reqs:androidhome:unfulfilledMessage")));
   (messages "android:reqs:androidsdkprerequisitescheck:title",
    Rejected
      (SfdxError
         (util.format h
            (messages
               "android:reqs:androidsdkprerequisitescheck:unfulfilledMessage")
            [message e2])));
   (messages "android:reqs:cmdlinetools:title",
    Rejected
      (SfdxError (messages "android:reqs:cmdlinetools:unfulfilledMessage")));
   (messages "android:reqs:platformtools:title",
    Rejected
      (SfdxError
         (util.format h (messages "android:reqs:platformtools:notFound")
            [h_platformToolsName h])));
   (messages "android:reqs:platformapi:title",
    Rejected
      (SfdxError
         (util.format h (messages "android:reqs:platformapi:unfulfilledMessage")
            [minSupportedRuntime (h_androidConfig h)])));
   (messages "android:reqs:emulatorimages:title",
    Rejected
      (SfdxError
         (util.format h
            (messages "android:reqs:emulatorimages:unfulfilledMessage")
            [String.concat "," (supportedImages (h_androidConfig h))])))].
Proof.
  intros R P T L S A I. unfold outcomesByTitle.
  change (BaseSetup.requirements
            (result (AndroidEnvironmentSetup.new messages logger apiLevel)))
    with (catalog messages logger apiLevel).
  rewrite catalog_shape. cbn [map checkFunction].
  rewrite (sdk_root_absent _ h R), (java8_rejected _ h e2 P),
    (platform_tools_not_found _ h e4 L S),
    (platform_api_rejected
       (result (PlatformAPIPackageRequirement.new messages logger apiLevel)) h e5 A),
    (emulator_images_rejected
       (result (EmulatorImagesRequirement.new messages logger apiLevel)) h e6 I).
  unfold result at 1. rewrite (cmdline_tools_rejected _ h e3 T).
  reflexivity.
Qed.

(** ** The further properties on concrete machines *)

Lemma check_depends_on_own_probe_only_witness :
  checkFunction (ReqCmdLineTools Sample.cmdLineToolsReq) Sample.ready =
  checkFunction (ReqCmdLineTools Sample.cmdLineToolsReq) Machines.toolsOnly.
Proof.
  apply (check_depends_on_own_probe_only
           (ReqCmdLineTools Sample.cmdLineToolsReq)
           Sample.ready Machines.toolsOnly).
  - repeat split.
  - reflexivity.
Defined.

Lemma failure_cause_dropped_witness :
  checkFunction (ReqPlatformAPI Sample.platformAPIReq)
    (Sample.bare Sample.notFound) =
  checkFunction (ReqPlatformAPI Sample.platformAPIReq)
    (Sample.bare Sample.failed).
Proof.
  apply (failure_cause_dropped (ReqPlatformAPI Sample.platformAPIReq)
           (Sample.bare Sample.notFound) (Sample.bare Sample.failed)).
  - discriminate.
  - discriminate.
  - repeat split.
  - reflexivity.
  - reflexivity.
Defined.

Lemma prerequisites_keeps_message_only_witness :
  Java8AvailableRequirement.checkFunction
    (result (Java8AvailableRequirement.new Sample.messages Sample.logger))
    (Sample.bare Sample.failed) =
  Java8AvailableRequirement.checkFunction
    (result (Java8AvailableRequirement.new Sample.messages Sample.logger))
    (Sample.bare Machines.failedToo).
Proof.
  apply (proj1 (prerequisites_keeps_message_only
                  (result (Java8AvailableRequirement.new
                             Sample.messages Sample.logger))
                  (Sample.bare Sample.failed)
                  (Sample.bare Machines.failedToo))
           Sample.failed Machines.failedToo); reflexivity.
Defined.

Lemma platform_tools_keeps_not_found_only_witness :
  AndroidSDKPlatformToolsInstalledRequirement.checkFunction
    Sample.platformToolsReq (Sample.bare Sample.notFound) =
  AndroidSDKPlatformToolsInstalledRequirement.checkFunction
    Sample.platformToolsReq (Sample.bare Machines.notFoundToo).
Proof.
  apply (platform_tools_keeps_not_found_only Sample.platformToolsReq
           (Sample.bare Sample.notFound) (Sample.bare Machines.notFoundToo)
           Sample.notFound Machines.notFoundToo).
  - repeat split.
  - reflexivity.
  - reflexivity.
  - split; reflexivity.
Defined.

Lemma only_tool_paths_are_normalised_witness :
  checkFunction (ReqEmulatorImages Sample.emulatorImagesReq) Sample.ready =
  checkFunction (ReqEmulatorImages Sample.emulatorImagesReq)
    Machines.rawPaths.
Proof.
  apply (only_tool_paths_are_normalised
           (ReqEmulatorImages Sample.emulatorImagesReq)
           Sample.ready Machines.rawPaths); try reflexivity.
  right. right. right. reflexivity.
Defined.

Lemma report_when_all_found_witness :
  outcomesByTitle (Sample.setup (Some "30")) Sample.ready =
  [("android:reqs:androidhome:title",
    Resolved "ANDROID_HOME is set to C:/sdk");
   ("android:reqs:androidsdkprerequisitescheck:title",
    Resolved "android:reqs:androidsdkprerequisitescheck:fulfilledMessage");
   ("android:reqs:cmdlinetools:title",
    Resolved "Command line tools found at C:/sdk/cmdline-tools/bin");
   ("android:reqs:platformtools:title",
    Resolved "Platform tools found at C:/sdk/platform-tools");
   ("android:reqs:platformapi:title", Resolved "Using API 30.");
   ("android:reqs:emulatorimages:title",
    Resolved
      "Emulator image found at system-images;android-30;default;x86_64")].
Proof.
  apply (report_when_all_found Sample.messages Sample.logger (Some "30")
           Sample.ready
           {| rootSource := "ANDROID_HOME"; rootLocation := "C:\\sdk" |}
           "" "C:\sdk\cmdline-tools\bin" "C:\sdk\platform-tools"
           {| platformAPI := "30"; path := "/x" |}
           {| platformAPI := "30";
              path := "system-images;android-30;default;x86_64" |});
    reflexivity.
Defined.

Lemma report_when_nothing_found_witness :
  outcomesByTitle (Sample.setup None) (Sample.bare Sample.notFound) =
  [("android:reqs:androidhome:title",
    Rejected (SfdxError "android:reqs:androidhome:unfulfilledMessage"));
   ("android:reqs:androidsdkprerequisitescheck:title",
    Rejected (SfdxError "Prerequisites missing: adb: command not found"));
   ("android:reqs:cmdlinetools:title",
    Rejected (SfdxError "android:reqs:cmdlinetools:unfulfilledMessage"));
   ("android:reqs:platformtools:title",
    Rejected (SfdxError "platform-tools not found"));
   ("android:reqs:platformapi:title",
    Rejected (SfdxError "Install a platform package for API 23 or later"));
   ("android:reqs:emulatorimages:title",
    Rejected
      (SfdxError
         "Install one of: google_apis,default,google_apis_playstore"))].
Proof.
  apply (report_when_nothing_found Sample.messages Sample.logger None
           (Sample.bare Sample.notFound)
           Sample.notFound Sample.notFound Sample.notFound
           Sample.notFound Sample.notFound);
    reflexivity.
Defined.
